(** * StatsCalculator and its C API: a shallow embedding

    The development follows the two translation units of the demonstration:

    - [StatsCalculator.h] declares the class [StatsCalculator], an ordered
      store of [double] samples with sum, mean and standard deviation;
    - [StatsCalculatorCAPI.cpp] defines the C API: a global
      [std::map<int, StatsCalculator>] indexed by integer handles, and one
      wrapper function per operation.

    C++ [int] is a 32-bit two's-complement integer carried by [Z], [double]
    is the kernel's binary64 [float], [std::map] is a [gmap] whose last
    element in key order is its largest key, and the global map together
    with the files the class reads and writes form an explicit [World]
    threaded through a small state-and-exception monad. *)

From Stdlib Require Import ZArith Lia Floats.
From stdpp Require Import base option list sorting gmap strings.

Local Open Scope Z_scope.

(** ** The C++ [int] type *)

Definition INT_MAX : Z := 2147483647.
Definition INT_MIN : Z := -2147483648.

(** Reduction of a mathematical integer into the range of [int].  Signed
    overflow is undefined in C++; the model takes the two's-complement
    result that the usual targets produce. *)
Definition int_wrap (z : Z) : Z := (z - INT_MIN) mod 4294967296 + INT_MIN.

(** [a + b] on [int]. *)
Definition int_add (a b : Z) : Z := int_wrap (a + b).

(** ** The class [StatsCalculator] *)

(** The single member datum, [std::vector<double> numericValues]. *)
Record StatsCalculator : Type := mkStatsCalculator {
  numericValues : list float
}.

(** Modelled from the spec: the default constructor [StatsCalculator()],
    whose definition is not part of the sources; an accumulator is
    created empty. *)
Definition StatsCalculator_new : StatsCalculator :=
  {| numericValues := [] |}.

(** Modelled from the spec: the body of [StatsCalculator::appendValue];
    it adds [value] to the end of the sample sequence. *)
Definition appendValue (value : float) (self : StatsCalculator) : StatsCalculator :=
  {| numericValues := numericValues self ++ [value] |}.

(** Modelled from the spec: the body of [StatsCalculator::readFile];
    clears nothing and appends every numeric token the file-reading
    collaborator yields, in the order it yields them.  [tokens] is what
    tokenising the named file produced. *)
Definition readFile (tokens : list float) (self : StatsCalculator) : StatsCalculator :=
  fold_left (fun acc value => appendValue value acc) tokens self.

(** Modelled from the spec: the divisor [count] of the mean and of the
    standard deviation, [numericValues.size()] converted to [double]. *)
Definition size_as_double (self : StatsCalculator) : float :=
  PrimFloat.of_uint63 (Uint63.of_Z (Z.of_nat (length (numericValues self)))).

(** Modelled from the spec: the body of [StatsCalculator::computeSum];
    left-to-right accumulation over the samples in insertion order,
    0.0 when there is none. *)
Definition computeSum (self : StatsCalculator) : float :=
  fold_left PrimFloat.add (numericValues self) 0%float.

(** Modelled from the spec: the body of [StatsCalculator::computeMean];
    [sum() / count]. *)
Definition computeMean (self : StatsCalculator) : float :=
  PrimFloat.div (computeSum self) (size_as_double self).

(** Modelled from the spec: the accumulation [sum((x_i - mean)^2)] inside
    [StatsCalculator::computeStandardDeviation], as a running sum over
    the samples in order. *)
Definition sumSquaredDeviations (mean : float) (values : list float) : float :=
  fold_left
    (fun acc x => PrimFloat.add acc (PrimFloat.mul (PrimFloat.sub x mean) (PrimFloat.sub x mean)))
    values 0%float.

(** Modelled from the spec: the body of
    [StatsCalculator::computeStandardDeviation];
    [sqrt(sum((x_i - mean)^2) / count)]. *)
Definition computeStandardDeviation (self : StatsCalculator) : float :=
  PrimFloat.sqrt
    (PrimFloat.div
       (sumSquaredDeviations (computeMean self) (numericValues self))
       (size_as_double self)).

(** Modelled from the spec: the body of [StatsCalculator::getSum]; it
    returns what [computeSum] computes from the current samples. *)
Definition getSum (self : StatsCalculator) : float := computeSum self.

(** Modelled from the spec: the body of [StatsCalculator::getMean]; it
    returns what [computeMean] computes from the current samples. *)
Definition getMean (self : StatsCalculator) : float := computeMean self.

(** Modelled from the spec: the body of
    [StatsCalculator::getStandardDeviation]; it returns what
    [computeStandardDeviation] computes from the current samples. *)
Definition getStandardDeviation (self : StatsCalculator) : float :=
  computeStandardDeviation self.

(** What [writeStats] hands to the file-writing collaborator. *)
Record StatsSummary : Type := mkStatsSummary {
  summarySum : float;
  summaryMean : float;
  summaryStandardDeviation : float
}.

(** Modelled from the spec: the content [StatsCalculator::writeStats]
    renders, a read-only view combining the three query results. *)
Definition summaryReport (self : StatsCalculator) : StatsSummary :=
  {| summarySum := getSum self;
     summaryMean := getMean self;
     summaryStandardDeviation := getStandardDeviation self |}.

(** The two ways samples enter an accumulator: one value through
    [appendValue], or the tokens of a file through [readFile]. *)
Inductive appending : Type :=
  | ByAppendValue (value : float)
  | ByReadFile (tokens : list float).

Definition appended_values (a : appending) : list float :=
  match a with
  | ByAppendValue value => [value]
  | ByReadFile tokens => tokens
  end.

Definition apply_appending (self : StatsCalculator) (a : appending) : StatsCalculator :=
  match a with
  | ByAppendValue value => appendValue value self
  | ByReadFile tokens => readFile tokens self
  end.

(** Left-to-right floating-point summation, from 0.0. *)
Definition float_sum (values : list float) : float :=
  fold_left PrimFloat.add values 0%float.

(** A count as a [double]. *)
Definition count_as_double (n : nat) : float :=
  PrimFloat.of_uint63 (Uint63.of_Z (Z.of_nat n)).

(** The population standard deviation of [values] around [mean], as the
    formula reads: the squared deviations, summed, over the count. *)
Definition population_standard_deviation (mean : float) (values : list float) : float :=
  PrimFloat.sqrt
    (PrimFloat.div
       (float_sum (map (fun x => PrimFloat.mul (PrimFloat.sub x mean) (PrimFloat.sub x mean)) values))
       (count_as_double (length values))).

(** The same with the sample (N - 1) divisor. *)
Definition sample_standard_deviation (mean : float) (values : list float) : float :=
  PrimFloat.sqrt
    (PrimFloat.div
       (float_sum (map (fun x => PrimFloat.mul (PrimFloat.sub x mean) (PrimFloat.sub x mean)) values))
       (count_as_double (length values - 1))).

(** ** The state of the process *)

(** [statsCalculators] is the global map of the C API.  [inputFiles] is
    the file-reading collaborator (the values tokenising a path yields)
    and [outputFiles] the log of summaries handed to the file-writing
    collaborator, most recent last. *)
Record World : Type := mkWorld {
  statsCalculators : gmap Z StatsCalculator;
  inputFiles : string -> list float;
  outputFiles : list (string * StatsSummary)
}.

Definition set_statsCalculators (r : gmap Z StatsCalculator) (w : World) : World :=
  {| statsCalculators := r;
     inputFiles := inputFiles w;
     outputFiles := outputFiles w |}.

(** ** State and exceptions *)

Inductive exception : Type := out_of_range.

Inductive outcome (A : Type) : Type :=
  | Returned (a : A)
  | Thrown (e : exception).
Arguments Returned {A} a.
Arguments Thrown {A} e.

(** A C++ computation over the process state: it returns or throws, and
    the state it leaves is kept in both cases. *)
Definition API (A : Type) : Type := World -> outcome A * World.

#[global] Instance API_ret : MRet API :=
  fun A (a : A) (w : World) => (Returned a, w).

#[global] Instance API_bind : MBind API :=
  fun A B (k : A -> API B) (m : API A) (w : World) =>
    match m w with
    | (Returned a, w') => k a w'
    | (Thrown e, w') => (Thrown e, w')
    end.

(** [try { body } catch (std::out_of_range &) { handler }]. *)
Definition try_catch {A : Type} (body : API A) (handler : exception -> API A) : API A :=
  fun w =>
    match body w with
    | (Returned a, w') => (Returned a, w')
    | (Thrown out_of_range, w') => handler out_of_range w'
    end.

(** ** [std::map<int, StatsCalculator>] *)

(** The largest key of an association list. *)
Definition largest_key (l : list (Z * StatsCalculator)) : option Z :=
  foldr
    (fun kv acc => Some (match acc with None => kv.1 | Some m => Z.max kv.1 m end))
    None l.

(** [rbegin()->first]: the key of the last element in key order, [None]
    on the empty map (where [rbegin() == rend()]). *)
Definition rbegin_first (r : gmap Z StatsCalculator) : option Z :=
  largest_key (map_to_list r).

(** [emplace_hint(hint, std::make_pair(key, value))]: the pair is
    inserted unless [key] is already present, whatever the hint; the
    iterator returned designates the element of key [key] either way. *)
Definition emplace_hint (key : Z) (value : StatsCalculator)
    (r : gmap Z StatsCalculator) : gmap Z StatsCalculator :=
  match r !! key with
  | Some _ => r
  | None => <[key := value]> r
  end.

(** [statsCalculators.at(handle)]: the element, or [std::out_of_range]. *)
Definition map_at (handle : Z) : API StatsCalculator :=
  fun w =>
    match statsCalculators w !! handle with
    | Some c => (Returned c, w)
    | None => (Thrown out_of_range, w)
    end.

(** Write-back through the reference [at] returned, after a mutating
    member function ran on it. *)
Definition map_store (handle : Z) (c : StatsCalculator) : API unit :=
  fun w => (Returned tt, set_statsCalculators (<[handle := c]> (statsCalculators w)) w).

(** The external reads and writes of [readFile] and [writeStats]. *)
Definition read_tokens (fileName : string) : API (list float) :=
  fun w => (Returned (inputFiles w fileName), w).

Definition write_summary (fileName : string) (s : StatsSummary) : API unit :=
  fun w =>
    (Returned tt,
     {| statsCalculators := statsCalculators w;
        inputFiles := inputFiles w;
        outputFiles := outputFiles w ++ [(fileName, s)] |}).

(** ** The C API *)

(** The key [statsCalcCreate] computes:
    [statsCalculators.empty() ? 0 : statsCalculators.rbegin()->first + 1]. *)
Definition next_key (r : gmap Z StatsCalculator) : Z :=
  match rbegin_first r with
  | None => 0
  | Some last => int_add last 1
  end.

Definition statsCalcCreate : API Z :=
  fun w =>
    let key := next_key (statsCalculators w) in
    let r' := emplace_hint key StatsCalculator_new (statsCalculators w) in
    (Returned key, set_statsCalculators r' w).

Definition statsCalcDestroy (handle : Z) : API unit :=
  fun w =>
    match statsCalculators w !! handle with
    | Some _ => (Returned tt, set_statsCalculators (delete handle (statsCalculators w)) w)
    | None => (Returned tt, w)
    end.

Definition statsCalcAppendValue (handle : Z) (value : float) : API unit :=
  try_catch
    (c ← map_at handle;
     map_store handle (appendValue value c))
    (fun _ => mret tt).

Definition statsCalcReadFile (handle : Z) (fileName : string) : API unit :=
  try_catch
    (c ← map_at handle;
     tokens ← read_tokens fileName;
     map_store handle (readFile tokens c))
    (fun _ => mret tt).

Definition statsCalcWriteStats (handle : Z) (fileName : string) : API unit :=
  try_catch
    (c ← map_at handle;
     write_summary fileName (summaryReport c))
    (fun _ => mret tt).

Definition statsCalcGetSum (handle : Z) : API float :=
  try_catch
    (c ← map_at handle;
     mret (getSum c))
    (fun _ => mret 0%float).

Definition statsCalcGetMean (handle : Z) : API float :=
  try_catch
    (c ← map_at handle;
     mret (getMean c))
    (fun _ => mret 0%float).

Definition statsCalcGetStdDev (handle : Z) : API float :=
  try_catch
    (c ← map_at handle;
     mret (getStandardDeviation c))
    (fun _ => mret 0%float).

(** ** Sequences of API calls *)

Inductive call : Type :=
  | Create
  | Destroy (handle : Z)
  | AppendValue (handle : Z) (value : float)
  | ReadFile (handle : Z) (fileName : string)
  | WriteStats (handle : Z) (fileName : string)
  | GetSum (handle : Z)
  | GetMean (handle : Z)
  | GetStdDev (handle : Z).

(** What a call hands back to the C caller. *)
Inductive value : Type :=
  | VInt (h : Z)
  | VVoid
  | VDouble (d : float).

Definition perform (c : call) : API value :=
  match c with
  | Create => h ← statsCalcCreate; mret (VInt h)
  | Destroy handle => _ ← statsCalcDestroy handle; mret VVoid
  | AppendValue handle v => _ ← statsCalcAppendValue handle v; mret VVoid
  | ReadFile handle f => _ ← statsCalcReadFile handle f; mret VVoid
  | WriteStats handle f => _ ← statsCalcWriteStats handle f; mret VVoid
  | GetSum handle => d ← statsCalcGetSum handle; mret (VDouble d)
  | GetMean handle => d ← statsCalcGetMean handle; mret (VDouble d)
  | GetStdDev handle => d ← statsCalcGetStdDev handle; mret (VDouble d)
  end.

(** The number of [statsCalcCreate] invocations a call makes. *)
Definition creations (c : call) : Z :=
  match c with Create => 1 | _ => 0 end.

Definition total_creations (cs : list call) : Z :=
  foldr (fun c n => creations c + n) 0 cs.

(** The state after a sequence of calls. *)
Definition run (cs : list call) (w : World) : World :=
  fold_left (fun w c => (perform c w).2) cs w.

(** The handles the [statsCalcCreate] calls of a sequence return, in call
    order. *)
Fixpoint handles_created (cs : list call) (w : World) : list Z :=
  match cs with
  | [] => []
  | c :: cs' =>
      match c, perform c w with
      | Create, (Returned (VInt h), w') => h :: handles_created cs' w'
      | _, (_, w') => handles_created cs' w'
      end
  end.

(** No [statsCalcDestroy] of the sequence removes the handle that is the
    largest live one at the moment of the call. *)
Fixpoint spares_largest (cs : list call) (w : World) : Prop :=
  match cs with
  | [] => True
  | c :: cs' =>
      match c with
      | Destroy handle => rbegin_first (statsCalculators w) ≠ Some handle
      | _ => True
      end
      ∧ spares_largest cs' (perform c w).2
  end.

(** States of the process: [reachable n w] when [w] is reached from a
    state with an empty map by calls of the API, [n] of them creations. *)
Inductive reachable : Z -> World -> Prop :=
  | reachable_start w :
      statsCalculators w = ∅ -> reachable 0 w
  | reachable_call n w c :
      reachable n w -> reachable (n + creations c) (perform c w).2.

(** A handle is live when the map has an element under it. *)
Definition live (w : World) (handle : Z) : Prop :=
  is_Some (statsCalculators w !! handle).

(** Every live handle is an [int] below [INT_MAX], so that
    [rbegin()->first + 1] does not overflow. *)
Definition below_INT_MAX (w : World) : Prop :=
  forall handle, live w handle -> INT_MIN <= handle < INT_MAX.

(** [m] is the largest live handle. *)
Definition largest_live (w : World) (m : Z) : Prop :=
  live w m ∧ forall handle, live w handle -> handle <= m.

(** ** Concrete states *)

Definition no_files : string -> list float := fun _ => [].

Definition world_of (r : gmap Z StatsCalculator) : World :=
  {| statsCalculators := r; inputFiles := no_files; outputFiles := [] |}.

Definition empty_world : World := world_of ∅.

(** A single live handle, 0, with a fresh accumulator. *)
Definition world_0 : World := world_of {[0 := StatsCalculator_new]}.

(** The only live handle is [INT_MAX]. *)
Definition world_INT_MAX : World := world_of {[INT_MAX := StatsCalculator_new]}.

(** [INT_MIN] and [INT_MAX] are both live, the former with one sample. *)
Definition world_INT_MIN_INT_MAX : World :=
  world_of
    (<[INT_MIN := {| numericValues := [1%float] |}]>
       {[INT_MAX := StatsCalculator_new]}).

(** The samples 2, 4, 6. *)
Definition samples_2_4_6 : StatsCalculator :=
  {| numericValues := [2%float; 4%float; 6%float] |}.

(** A live handle 0 whose accumulator holds no sample yet, and a live
    handle 1 holding 2, 4, 6. *)
Definition world_fresh_and_2_4_6 : World :=
  world_of (<[1 := samples_2_4_6]> {[0 := StatsCalculator_new]}).

(** Two instances, the first destroyed, then a third one. *)
Definition calls_keeping_largest : list call :=
  [Create; AppendValue 0 2%float; Create; Destroy 0; Create].

(** Two instances, both destroyed from the largest down, then a third. *)
Definition calls_destroying_largest : list call :=
  [Create; Create; Destroy 1; Destroy 0; Create].

(** The samples 2, 4, 6 under handle 0 and a fresh accumulator under
    handle 1: the live handles of [world_fresh_and_2_4_6], with the
    contents exchanged. *)
Definition world_2_4_6_and_fresh : World :=
  world_of (<[1 := StatsCalculator_new]> {[0 := samples_2_4_6]}).

(** ** Calls and the instances they address *)

(** The handle a call passes to the API, none for [statsCalcCreate]. *)
Definition target (c : call) : option Z :=
  match c with
  | Create => None
  | Destroy handle
  | AppendValue handle _
  | ReadFile handle _
  | WriteStats handle _
  | GetSum handle
  | GetMean handle
  | GetStdDev handle => Some handle
  end.

(** The calls that neither create nor destroy an instance. *)
Definition keeps_instances (c : call) : bool :=
  match c with
  | Create | Destroy _ => false
  | _ => true
  end.

(** * Properties *)

(** ** Arithmetic on [int] *)

Lemma int_wrap_in_range (z : Z) : INT_MIN <= z <= INT_MAX -> int_wrap z = z.
Proof.
  unfold int_wrap, INT_MIN, INT_MAX. intros Hz.
  rewrite Z.mod_small by lia. lia.
Qed.

Lemma int_add_1_below_INT_MAX (a : Z) :
  INT_MIN <= a < INT_MAX -> int_add a 1 = a + 1.
Proof.
  intros Ha. unfold int_add. apply int_wrap_in_range.
  unfold INT_MIN, INT_MAX in *. lia.
Qed.

Lemma int_add_1_INT_MAX : int_add INT_MAX 1 = INT_MIN.
Proof. reflexivity. Qed.

(** ** The last key of the map *)

Lemma largest_key_None (l : list (Z * StatsCalculator)) :
  largest_key l = None <-> l = [].
Proof.
  destruct l as [|kv l]; simpl; split; try done.
Qed.

Lemma largest_key_Some (l : list (Z * StatsCalculator)) (m : Z) :
  largest_key l = Some m ->
  (exists c, (m, c) ∈ l) ∧ (forall k c, (k, c) ∈ l -> k <= m).
Proof.
  revert m. induction l as [|[k0 c0] l IH]; intros m Hm; simpl in Hm.
  - discriminate.
  - destruct (largest_key l) as [m'|] eqn:Hl.
    + destruct (IH m' eq_refl) as [[c' Hin] Hub].
      injection Hm as <-. split.
      * destruct (Z.max_spec k0 m') as [[_ ->]|[_ ->]].
        -- exists c'. apply elem_of_cons. by right.
        -- exists c0. apply elem_of_cons. by left.
      * intros k c [Heq|Hin']%elem_of_cons.
        -- injection Heq as -> ->. lia.
        -- specialize (Hub k c Hin'). lia.
    + apply largest_key_None in Hl as ->.
      injection Hm as <-. split.
      * exists c0. apply elem_of_cons. by left.
      * intros k c [Heq|Hin']%elem_of_cons.
        -- injection Heq as -> ->. simpl. lia.
        -- by apply elem_of_nil in Hin'.
Qed.

Lemma rbegin_first_None (r : gmap Z StatsCalculator) :
  rbegin_first r = None <-> r = ∅.
Proof.
  unfold rbegin_first. rewrite largest_key_None.
  apply map_to_list_empty_iff.
Qed.

Lemma rbegin_first_empty : rbegin_first ∅ = None.
Proof. by apply rbegin_first_None. Qed.

Lemma rbegin_first_Some_1 (r : gmap Z StatsCalculator) (m : Z) :
  rbegin_first r = Some m ->
  is_Some (r !! m) ∧ (forall k, is_Some (r !! k) -> k <= m).
Proof.
  intros Hm. apply largest_key_Some in Hm as [[c Hin] Hub]. split.
  - exists c. by apply elem_of_map_to_list.
  - intros k [c' Hk]. apply (Hub k c'). by apply elem_of_map_to_list.
Qed.

Lemma rbegin_first_Some (r : gmap Z StatsCalculator) (m : Z) :
  rbegin_first r = Some m <->
  is_Some (r !! m) ∧ (forall k, is_Some (r !! k) -> k <= m).
Proof.
  split; [apply rbegin_first_Some_1|].
  intros [Hlive Hub].
  destruct (rbegin_first r) as [m'|] eqn:Hr.
  - apply rbegin_first_Some_1 in Hr as [Hlive' Hub'].
    f_equal. specialize (Hub m' Hlive'). specialize (Hub' m Hlive). lia.
  - apply rbegin_first_None in Hr. subst r.
    rewrite lookup_empty in Hlive. by destruct Hlive.
Qed.

(** The last key only depends on which handles are live. *)
Lemma rbegin_first_ext (r1 r2 : gmap Z StatsCalculator) :
  (forall k, is_Some (r1 !! k) <-> is_Some (r2 !! k)) ->
  rbegin_first r1 = rbegin_first r2.
Proof.
  intros Hdom.
  destruct (rbegin_first r2) as [m|] eqn:H2.
  - apply rbegin_first_Some. apply rbegin_first_Some_1 in H2 as [Hlive Hub].
    split; [by apply Hdom|]. intros k Hk. apply Hub. by apply Hdom.
  - apply rbegin_first_None. apply rbegin_first_None in H2. subst r2.
    apply map_empty. intros k. apply eq_None_not_Some. rewrite Hdom.
    rewrite lookup_empty. by intros [? ?].
Qed.

Lemma rbegin_first_insert_above (r : gmap Z StatsCalculator) (key : Z) (c : StatsCalculator) :
  (forall k, is_Some (r !! k) -> k < key) ->
  rbegin_first (<[key := c]> r) = Some key.
Proof.
  intros Hub. apply rbegin_first_Some. split.
  - rewrite lookup_insert_eq. by eexists.
  - intros k Hk. apply lookup_insert_is_Some in Hk as [->|[_ Hk]]; [lia|].
    specialize (Hub k Hk). lia.
Qed.

Lemma rbegin_first_singleton (key : Z) (c : StatsCalculator) :
  rbegin_first {[key := c]} = Some key.
Proof.
  rewrite <- insert_empty. apply rbegin_first_insert_above.
  intros k Hk. rewrite lookup_empty in Hk. by destruct Hk.
Qed.

Lemma rbegin_first_insert_live (r : gmap Z StatsCalculator) (key : Z) (c : StatsCalculator) :
  is_Some (r !! key) -> rbegin_first (<[key := c]> r) = rbegin_first r.
Proof.
  intros Hlive. apply rbegin_first_ext. intros k.
  rewrite lookup_insert_is_Some. split.
  - intros [<-|[_ Hk]]; done.
  - intros Hk. destruct (decide (key = k)); [by left | by right].
Qed.

Lemma rbegin_first_delete_other (r : gmap Z StatsCalculator) (handle : Z) :
  rbegin_first r ≠ Some handle ->
  rbegin_first (delete handle r) = rbegin_first r.
Proof.
  intros Hne. destruct (rbegin_first r) as [m|] eqn:Hr.
  - apply rbegin_first_Some. apply rbegin_first_Some_1 in Hr as [Hlive Hub].
    assert (handle ≠ m) by congruence. split.
    + by rewrite lookup_delete_ne.
    + intros k Hk. apply lookup_delete_is_Some in Hk as [_ Hk]. by apply Hub.
  - apply rbegin_first_None in Hr. subst r.
    rewrite delete_empty. apply rbegin_first_empty.
Qed.

(** ** The wrappers, case by case *)

Ltac api_unfold :=
  unfold statsCalcAppendValue, statsCalcReadFile, statsCalcWriteStats,
    statsCalcGetSum, statsCalcGetMean, statsCalcGetStdDev, statsCalcDestroy,
    try_catch, mbind, API_bind, mret, API_ret, map_at, map_store,
    read_tokens, write_summary.

Lemma set_statsCalculators_same (w : World) :
  set_statsCalculators (statsCalculators w) w = w.
Proof. by destruct w. Qed.

Lemma statsCalcCreate_eq (w : World) :
  statsCalcCreate w =
  (Returned (next_key (statsCalculators w)),
   set_statsCalculators
     (emplace_hint (next_key (statsCalculators w)) StatsCalculator_new (statsCalculators w)) w).
Proof. reflexivity. Qed.

Lemma statsCalcDestroy_live (handle : Z) (w : World) :
  live w handle ->
  statsCalcDestroy handle w =
  (Returned tt, set_statsCalculators (delete handle (statsCalculators w)) w).
Proof. intros [c Hc]. api_unfold. by rewrite Hc. Qed.

Lemma statsCalcDestroy_unknown (handle : Z) (w : World) :
  statsCalculators w !! handle = None ->
  statsCalcDestroy handle w = (Returned tt, w).
Proof. intros Hc. api_unfold. by rewrite Hc. Qed.

Lemma statsCalcAppendValue_live (handle : Z) (v : float) (w : World) (c : StatsCalculator) :
  statsCalculators w !! handle = Some c ->
  statsCalcAppendValue handle v w =
  (Returned tt,
   set_statsCalculators (<[handle := appendValue v c]> (statsCalculators w)) w).
Proof. intros Hc. api_unfold. by rewrite Hc. Qed.

Lemma statsCalcReadFile_live (handle : Z) (f : string) (w : World) (c : StatsCalculator) :
  statsCalculators w !! handle = Some c ->
  statsCalcReadFile handle f w =
  (Returned tt,
   set_statsCalculators (<[handle := readFile (inputFiles w f) c]> (statsCalculators w)) w).
Proof. intros Hc. api_unfold. by rewrite Hc. Qed.

Lemma statsCalcWriteStats_registry (handle : Z) (f : string) (w : World) :
  statsCalculators (statsCalcWriteStats handle f w).2 = statsCalculators w.
Proof. api_unfold. by destruct (statsCalculators w !! handle). Qed.

Lemma statsCalcGetSum_live (handle : Z) (w : World) (c : StatsCalculator) :
  statsCalculators w !! handle = Some c ->
  statsCalcGetSum handle w = (Returned (getSum c), w).
Proof. intros Hc. api_unfold. by rewrite Hc. Qed.

Lemma statsCalcGetMean_live (handle : Z) (w : World) (c : StatsCalculator) :
  statsCalculators w !! handle = Some c ->
  statsCalcGetMean handle w = (Returned (getMean c), w).
Proof. intros Hc. api_unfold. by rewrite Hc. Qed.

Lemma statsCalcGetStdDev_live (handle : Z) (w : World) (c : StatsCalculator) :
  statsCalculators w !! handle = Some c ->
  statsCalcGetStdDev handle w = (Returned (getStandardDeviation c), w).
Proof. intros Hc. api_unfold. by rewrite Hc. Qed.

(** ** The key of a new instance *)

Lemma next_key_empty : next_key ∅ = 0.
Proof. unfold next_key. by rewrite rbegin_first_empty. Qed.

Lemma next_key_largest (w : World) (m : Z) :
  largest_live w m -> INT_MIN <= m < INT_MAX ->
  next_key (statsCalculators w) = m + 1.
Proof.
  intros Hm Hrange. unfold next_key.
  apply rbegin_first_Some in Hm. rewrite Hm.
  by apply int_add_1_below_INT_MAX.
Qed.

(** Without overflow the new key is above every live handle. *)
Lemma next_key_above (w : World) :
  below_INT_MAX w ->
  forall handle, live w handle -> handle < next_key (statsCalculators w).
Proof.
  intros Hlt handle Hlive. unfold next_key.
  destruct (rbegin_first (statsCalculators w)) as [m|] eqn:Hr.
  - apply rbegin_first_Some_1 in Hr as [Hm Hub].
    rewrite int_add_1_below_INT_MAX by (by apply Hlt).
    specialize (Hub handle Hlive). lia.
  - apply rbegin_first_None in Hr. unfold live in Hlive.
    rewrite Hr, lookup_empty in Hlive. by destruct Hlive.
Qed.

Lemma next_key_fresh (w : World) :
  below_INT_MAX w ->
  statsCalculators w !! next_key (statsCalculators w) = None.
Proof.
  intros Hlt. apply eq_None_not_Some. intros Hlive.
  pose proof (next_key_above w Hlt _ Hlive). lia.
Qed.

Lemma emplace_hint_fresh (key : Z) (c : StatsCalculator) (r : gmap Z StatsCalculator) :
  r !! key = None -> emplace_hint key c r = <[key := c]> r.
Proof. intros Hk. unfold emplace_hint. by rewrite Hk. Qed.

(** [emplace_hint] never touches an element already in the map. *)
Lemma emplace_hint_frame (key : Z) (c : StatsCalculator) (r : gmap Z StatsCalculator)
    (k : Z) (c' : StatsCalculator) :
  r !! k = Some c' -> emplace_hint key c r !! k = Some c'.
Proof.
  intros Hk. unfold emplace_hint.
  destruct (r !! key) eqn:Hkey; [done|].
  rewrite lookup_insert_ne; [done|]. intros ->. congruence.
Qed.

Lemma emplace_hint_live (key : Z) (c : StatsCalculator) (r : gmap Z StatsCalculator) (k : Z) :
  is_Some (emplace_hint key c r !! k) <-> k = key ∨ is_Some (r !! k).
Proof.
  unfold emplace_hint. destruct (r !! key) eqn:Hkey.
  - split; [by right|]. intros [->|Hk]; [|done]. rewrite Hkey. by eexists.
  - rewrite lookup_insert_is_Some. split.
    + intros [->|[_ Hk]]; [by left | by right].
    + intros [->|Hk]; [by left|].
      destruct (decide (key = k)); [by left | by right].
Qed.

Lemma below_INT_MAX_world_0 : below_INT_MAX world_0.
Proof.
  intros handle Hlive. unfold live, world_0, world_of in Hlive; simpl in Hlive.
  apply lookup_singleton_is_Some in Hlive as <-.
  unfold INT_MIN, INT_MAX. lia.
Qed.

(** ** Handle assignment *)

Section Create.

Variable w : World.

(** C1 (as amended): in every state whose live handles are all below
    INT_MAX, statsCalcCreate() returns the largest live handle plus one
    when the map is non-empty and 0 when it is empty, and inserts a
    fresh empty accumulator under that handle, which was not live. *)
Theorem statsCalcCreate_returns_largest_plus_one :
  below_INT_MAX w ->
  exists key,
    statsCalcCreate w =
      (Returned key,
       set_statsCalculators (<[key := StatsCalculator_new]> (statsCalculators w)) w)
    ∧ statsCalculators w !! key = None
    ∧ (statsCalculators w = ∅ -> key = 0)
    ∧ (forall m, largest_live w m -> key = m + 1).
Proof.
  intros Hlt. exists (next_key (statsCalculators w)).
  pose proof (next_key_fresh w Hlt) as Hfresh.
  rewrite statsCalcCreate_eq, emplace_hint_fresh by done.
  repeat split; [done| |].
  - intros ->. apply next_key_empty.
  - intros m Hm. apply next_key_largest; [done|]. apply Hlt, Hm.
Qed.

(** C10 (as amended): statsCalcCreate() leaves every element already in
    the map as it was, in every state; and when every live handle is
    below INT_MAX the handle it returns was not live at the call. *)
Theorem statsCalcCreate_frame_and_fresh :
  (forall k c, statsCalculators w !! k = Some c ->
               statsCalculators (statsCalcCreate w).2 !! k = Some c)
  ∧ (below_INT_MAX w ->
     forall h, (statsCalcCreate w).1 = Returned h -> ¬ live w h).
Proof.
  split.
  - intros k c Hk. rewrite statsCalcCreate_eq. simpl.
    by apply emplace_hint_frame.
  - intros Hlt h Hh Hlive. rewrite statsCalcCreate_eq in Hh. simpl in Hh.
    injection Hh as <-.
    pose proof (next_key_above w Hlt _ Hlive). lia.
Qed.

(** C5 (as amended): in every state whose live handles are all below
    INT_MAX, statsCalcDestroy(statsCalcCreate()) gives back the very
    state the create call started from. *)
Theorem statsCalcDestroy_statsCalcCreate_restores :
  below_INT_MAX w ->
  exists h,
    (statsCalcCreate w).1 = Returned h
    ∧ statsCalcDestroy h (statsCalcCreate w).2 = (Returned tt, w).
Proof.
  intros Hlt. exists (next_key (statsCalculators w)).
  pose proof (next_key_fresh w Hlt) as Hfresh.
  rewrite statsCalcCreate_eq, emplace_hint_fresh by done. simpl.
  split; [done|].
  rewrite statsCalcDestroy_live.
  - simpl. rewrite delete_insert_id by done.
    f_equal. by destruct w.
  - unfold live. simpl. rewrite lookup_insert_eq. by eexists.
Qed.

End Create.

Lemma statsCalcCreate_returns_largest_plus_one_witness :
  below_INT_MAX world_0
  ∧ exists key,
      statsCalcCreate world_0 =
        (Returned key,
         set_statsCalculators (<[key := StatsCalculator_new]> (statsCalculators world_0)) world_0)
      ∧ statsCalculators world_0 !! key = None
      ∧ (statsCalculators world_0 = ∅ -> key = 0)
      ∧ (forall m, largest_live world_0 m -> key = m + 1).
Proof.
  split.
  - exact below_INT_MAX_world_0.
  - exact (statsCalcCreate_returns_largest_plus_one world_0 below_INT_MAX_world_0).
Defined.

(** C1 fails when INT_MAX is live: the handle returned is INT_MIN, not
    the largest live handle plus one. *)
Lemma statsCalcCreate_INT_MAX_counterexample :
  largest_live world_INT_MAX 2147483647
  ∧ (statsCalcCreate world_INT_MAX).1 = Returned (-2147483648)
  ∧ -2147483648 ≠ 2147483647 + 1.
Proof.
  split; [|split; [by vm_compute | lia]].
  apply rbegin_first_Some. apply (rbegin_first_singleton INT_MAX).
Qed.

Lemma statsCalcCreate_frame_and_fresh_witness :
  below_INT_MAX world_0
  ∧ (forall k c, statsCalculators world_0 !! k = Some c ->
                 statsCalculators (statsCalcCreate world_0).2 !! k = Some c)
  ∧ (below_INT_MAX world_0 ->
     forall h, (statsCalcCreate world_0).1 = Returned h -> ¬ live world_0 h).
Proof.
  split.
  - exact below_INT_MAX_world_0.
  - exact (statsCalcCreate_frame_and_fresh world_0).
Defined.

(** C10 fails when INT_MIN and INT_MAX are both live: the handle
    returned is INT_MIN, which is live. *)
Lemma statsCalcCreate_live_handle_counterexample :
  (statsCalcCreate world_INT_MIN_INT_MAX).1 = Returned (-2147483648)
  ∧ live world_INT_MIN_INT_MAX (-2147483648).
Proof.
  split; [by vm_compute|].
  exists {| numericValues := [1%float] |}. by vm_compute.
Qed.

Lemma statsCalcDestroy_statsCalcCreate_restores_witness :
  below_INT_MAX world_0
  ∧ exists h,
      (statsCalcCreate world_0).1 = Returned h
      ∧ statsCalcDestroy h (statsCalcCreate world_0).2 = (Returned tt, world_0).
Proof.
  split.
  - exact below_INT_MAX_world_0.
  - exact (statsCalcDestroy_statsCalcCreate_restores world_0 below_INT_MAX_world_0).
Defined.

(** C5 fails when INT_MIN and INT_MAX are both live: create returns
    INT_MIN without inserting, and destroying that handle removes the
    accumulator that was there before the create call. *)
Lemma statsCalcDestroy_statsCalcCreate_counterexample :
  (statsCalcCreate world_INT_MIN_INT_MAX).1 = Returned (-2147483648)
  ∧ statsCalculators world_INT_MIN_INT_MAX !! (-2147483648)
    = Some {| numericValues := [1%float] |}
  ∧ statsCalculators
      (statsCalcDestroy (-2147483648) (statsCalcCreate world_INT_MIN_INT_MAX).2).2
      !! (-2147483648) = None.
Proof. repeat split; by vm_compute. Qed.

(** ** Unknown handles *)

(** C2: for a handle that is not in the map, the three mutating wrappers
    return normally and leave the whole state as it was, the three
    queries return 0.0, and statsCalcDestroy does nothing; none of the
    calls throws. *)
Theorem unknown_handle_swallowed (w : World) (h : Z) (v : float) (f : string) :
  statsCalculators w !! h = None ->
  statsCalcAppendValue h v w = (Returned tt, w)
  ∧ statsCalcReadFile h f w = (Returned tt, w)
  ∧ statsCalcWriteStats h f w = (Returned tt, w)
  ∧ statsCalcGetSum h w = (Returned 0%float, w)
  ∧ statsCalcGetMean h w = (Returned 0%float, w)
  ∧ statsCalcGetStdDev h w = (Returned 0%float, w)
  ∧ statsCalcDestroy h w = (Returned tt, w).
Proof.
  intros Hh. api_unfold. rewrite Hh. repeat split.
Qed.

Lemma unknown_handle_swallowed_witness :
  statsCalculators world_0 !! 999 = None
  ∧ statsCalcAppendValue 999 2%float world_0 = (Returned tt, world_0)
  ∧ statsCalcReadFile 999 "data.txt" world_0 = (Returned tt, world_0)
  ∧ statsCalcWriteStats 999 "stats.txt" world_0 = (Returned tt, world_0)
  ∧ statsCalcGetSum 999 world_0 = (Returned 0%float, world_0)
  ∧ statsCalcGetMean 999 world_0 = (Returned 0%float, world_0)
  ∧ statsCalcGetStdDev 999 world_0 = (Returned 0%float, world_0)
  ∧ statsCalcDestroy 999 world_0 = (Returned tt, world_0).
Proof.
  split.
  - reflexivity.
  - exact (unknown_handle_swallowed world_0 999 2%float "data.txt" eq_refl).
Defined.

(** ** Reuse of handle 0 *)

(** C4: when 0 is the only live handle, statsCalcDestroy(0) followed by
    statsCalcCreate() returns 0 again, now naming a fresh accumulator. *)
Theorem destroy_0_then_create_returns_0 (w : World) (c : StatsCalculator) :
  statsCalculators w = {[0 := c]} ->
  exists w1 w2,
    statsCalcDestroy 0 w = (Returned tt, w1)
    ∧ statsCalcCreate w1 = (Returned 0, w2)
    ∧ statsCalculators w2 = {[0 := StatsCalculator_new]}.
Proof.
  intros Hw.
  exists (set_statsCalculators ∅ w),
    (set_statsCalculators {[0 := StatsCalculator_new]} w).
  split.
  - rewrite statsCalcDestroy_live.
    + by rewrite Hw, delete_singleton_eq.
    + unfold live. rewrite Hw, lookup_singleton_eq. by eexists.
  - rewrite statsCalcCreate_eq. simpl.
    rewrite next_key_empty, emplace_hint_fresh by apply lookup_empty.
    by rewrite insert_empty.
Qed.

Lemma destroy_0_then_create_returns_0_witness :
  statsCalculators world_0 = {[0 := StatsCalculator_new]}
  ∧ exists w1 w2,
      statsCalcDestroy 0 world_0 = (Returned tt, w1)
      ∧ statsCalcCreate w1 = (Returned 0, w2)
      ∧ statsCalculators w2 = {[0 := StatsCalculator_new]}.
Proof.
  split.
  - reflexivity.
  - exact (destroy_0_then_create_returns_0 world_0 StatsCalculator_new eq_refl).
Defined.

(** ** Sequences of calls: which handles are live *)

Lemma perform_Create (w : World) :
  perform Create w =
  (Returned (VInt (next_key (statsCalculators w))), (statsCalcCreate w).2).
Proof. reflexivity. Qed.

Lemma perform_Destroy_state (handle : Z) (w : World) :
  (perform (Destroy handle) w).2 = (statsCalcDestroy handle w).2.
Proof.
  unfold perform. api_unfold.
  by destruct (statsCalculators w !! handle).
Qed.

Lemma live_after_Create (w : World) (k : Z) :
  live (statsCalcCreate w).2 k <->
  k = next_key (statsCalculators w) ∨ live w k.
Proof. unfold live. rewrite statsCalcCreate_eq. simpl. apply emplace_hint_live. Qed.

Lemma live_after_Destroy (handle : Z) (w : World) (k : Z) :
  live (statsCalcDestroy handle w).2 k <-> k ≠ handle ∧ live w k.
Proof.
  unfold live, statsCalcDestroy.
  destruct (statsCalculators w !! handle) eqn:Hh; simpl.
  - rewrite lookup_delete_is_Some. split; intros [? ?]; split; congruence.
  - split; [|tauto]. intros Hk. split; [|done].
    intros ->. rewrite Hh in Hk. by destruct Hk.
Qed.

(** Appending, reading, writing and querying keep the set of live handles. *)
Lemma live_after_other (c : call) (w : World) (k : Z) :
  creations c = 0 -> (forall handle, c ≠ Destroy handle) ->
  live (perform c w).2 k <-> live w k.
Proof.
  intros Hc Hd. unfold live.
  destruct c as [|h|h v|h f|h f|h|h|h]; try discriminate;
    try (by destruct (Hd h)); unfold perform; api_unfold;
    destruct (statsCalculators w !! h) eqn:Hh; simpl; try done.
  all: rewrite lookup_insert_is_Some; split;
    [ intros [<-|[_ Hk]]; [rewrite Hh; by eexists | done]
    | intros Hk; destruct (decide (h = k)); [by left | by right] ].
Qed.

Lemma live_after_not_Create (c : call) (w : World) (k : Z) :
  c ≠ Create -> live (perform c w).2 k -> live w k.
Proof.
  intros Hc Hk. destruct (decide (creations c = 0)) as [Hz|Hz].
  - destruct c as [|h|h v|h f|h f|h|h|h]; try done.
    + rewrite perform_Destroy_state in Hk.
      by apply live_after_Destroy in Hk as [_ Hk].
    + by apply live_after_other in Hk.
    + by apply live_after_other in Hk.
    + by apply live_after_other in Hk.
    + by apply live_after_other in Hk.
    + by apply live_after_other in Hk.
    + by apply live_after_other in Hk.
  - by destruct c.
Qed.

(** A call that is not a creation and does not destroy the last element
    leaves the last key of the map as it was. *)
Lemma rbegin_first_after_not_Create (c : call) (w : World) :
  c ≠ Create ->
  match c with
  | Destroy handle => rbegin_first (statsCalculators w) ≠ Some handle
  | _ => True
  end ->
  rbegin_first (statsCalculators (perform c w).2) = rbegin_first (statsCalculators w).
Proof.
  intros Hc Hspare.
  destruct c as [|h|h v|h f|h f|h|h|h]; try done.
  - rewrite perform_Destroy_state. unfold statsCalcDestroy.
    destruct (statsCalculators w !! h); simpl; [|done].
    by apply rbegin_first_delete_other.
  - apply rbegin_first_ext. intros k. by apply (live_after_other (AppendValue h v)).
  - apply rbegin_first_ext. intros k. by apply (live_after_other (ReadFile h f)).
  - apply rbegin_first_ext. intros k. by apply (live_after_other (WriteStats h f)).
  - apply rbegin_first_ext. intros k. by apply (live_after_other (GetSum h)).
  - apply rbegin_first_ext. intros k. by apply (live_after_other (GetMean h)).
  - apply rbegin_first_ext. intros k. by apply (live_after_other (GetStdDev h)).
Qed.

Lemma Create_or_not (c : call) : c = Create ∨ c ≠ Create.
Proof. destruct c; [by left | by right ..]. Qed.

Lemma creations_not_Create (c : call) : c ≠ Create -> creations c = 0.
Proof. by destruct c. Qed.

Lemma creations_nonneg (c : call) : 0 <= creations c.
Proof. destruct c; simpl; lia. Qed.

Lemma total_creations_nonneg (cs : list call) : 0 <= total_creations cs.
Proof.
  induction cs as [|c cs IH]; simpl; [lia|].
  pose proof (creations_nonneg c). lia.
Qed.

(** When the live handles all lie in [0, n) and [n] is at most INT_MAX,
    the key of a new instance lies in [0, n]. *)
Lemma next_key_bounds (w : World) (n : Z) :
  (forall k, live w k -> 0 <= k < n) -> 0 <= n <= INT_MAX ->
  0 <= next_key (statsCalculators w) <= n.
Proof.
  intros Hb Hn. unfold next_key.
  destruct (rbegin_first (statsCalculators w)) as [m|] eqn:Hr; [|lia].
  apply rbegin_first_Some_1 in Hr as [Hm _]. specialize (Hb m Hm).
  rewrite int_add_1_below_INT_MAX; unfold INT_MIN, INT_MAX in *; lia.
Qed.

Lemma below_INT_MAX_of_bounds (w : World) (n : Z) :
  (forall k, live w k -> 0 <= k < n) -> n <= INT_MAX -> below_INT_MAX w.
Proof.
  intros Hb Hn k Hk. specialize (Hb k Hk).
  unfold INT_MIN, INT_MAX in *. lia.
Qed.

Lemma reachable_eq (n n' : Z) (w w' : World) :
  reachable n w -> n = n' -> w = w' -> reachable n' w'.
Proof. by intros H <- <-. Qed.

Lemma reachable_run (cs : list call) :
  forall n w, reachable n w -> reachable (n + total_creations cs) (run cs w).
Proof.
  induction cs as [|c cs IH]; intros n w Hr; simpl.
  - by rewrite Z.add_0_r.
  - rewrite Z.add_assoc. apply IH. by apply reachable_call.
Qed.

(** After [n] creations, with [n] at most 2^31, the live handles lie in
    [0, n). *)
Lemma reachable_bounds (n : Z) (w : World) :
  reachable n w ->
  0 <= n ∧ (n <= 2147483648 -> forall k, live w k -> 0 <= k < n).
Proof.
  induction 1 as [w Hw|n w c Hr [Hn IH]].
  - split; [lia|]. intros _ k Hk. unfold live in Hk.
    rewrite Hw, lookup_empty in Hk. by destruct Hk.
  - pose proof (creations_nonneg c) as Hc. split; [lia|].
    intros Hle k Hk. specialize (IH ltac:(lia)).
    destruct (Create_or_not c) as [->|Hne].
    + change (creations Create) with 1 in *.
      change (live (statsCalcCreate w).2 k) in Hk.
      apply live_after_Create in Hk as [->|Hk].
      * pose proof (next_key_bounds w n IH). unfold INT_MAX in *. lia.
      * specialize (IH k Hk). lia.
    + apply live_after_not_Create in Hk; [|done]. specialize (IH k Hk). lia.
Qed.

(** ** Handles are non-negative until [int] overflows *)

(** C9 (as amended): in every state reached from the empty map by calls
    of which at most 2^31 are creations, every live handle is
    non-negative; and as long as fewer than 2^31 creations were made,
    the next statsCalcCreate() returns a non-negative handle. *)
Theorem reachable_handles_nonnegative (n : Z) (w : World) :
  reachable n w -> n <= 2147483648 ->
  (forall h, live w h -> 0 <= h)
  ∧ (n < 2147483648 ->
     exists h, (statsCalcCreate w).1 = Returned h ∧ 0 <= h).
Proof.
  intros Hr Hle. destruct (reachable_bounds n w Hr) as [Hn Hb].
  specialize (Hb Hle). split.
  - intros h Hh. by apply Hb.
  - intros Hlt. exists (next_key (statsCalculators w)). split; [done|].
    apply (next_key_bounds w n); [done|]. unfold INT_MAX. lia.
Qed.

Lemma reachable_handles_nonnegative_witness :
  reachable 3 (run calls_keeping_largest empty_world)
  ∧ 3 <= 2147483648
  ∧ (forall h, live (run calls_keeping_largest empty_world) h -> 0 <= h)
  ∧ (3 < 2147483648 ->
     exists h,
       (statsCalcCreate (run calls_keeping_largest empty_world)).1 = Returned h
       ∧ 0 <= h).
Proof.
  assert (Hr : reachable 3 (run calls_keeping_largest empty_world)).
  { exact (reachable_run calls_keeping_largest 0 empty_world
             (reachable_start empty_world eq_refl)). }
  assert (Hle : 3 <= 2147483648) by lia.
  split; [exact Hr|]. split; [exact Hle|].
  exact (reachable_handles_nonnegative 3 _ Hr Hle).
Defined.

(** Creating a new instance and destroying the previous one, over and
    over, walks a single live handle up to INT_MAX. *)
Lemma reachable_single (k : Z) :
  0 <= k -> k <= INT_MAX ->
  reachable (k + 1) (world_of {[k := StatsCalculator_new]}).
Proof.
  intros Hk. pattern k. revert k Hk. apply natlike_ind.
  - intros _.
    apply (reachable_eq _ _ _ _
             (reachable_call 0 empty_world Create (reachable_start empty_world eq_refl)));
      [done|].
    rewrite perform_Create, statsCalcCreate_eq. simpl.
    rewrite next_key_empty, emplace_hint_fresh by apply lookup_empty.
    by rewrite insert_empty.
  - intros k Hk IH Hle. specialize (IH ltac:(lia)).
    set (w := world_of {[k := StatsCalculator_new]}) in *.
    assert (Hnext : next_key (statsCalculators w) = k + 1).
    { unfold next_key, w. simpl. rewrite rbegin_first_singleton.
      apply int_add_1_below_INT_MAX. unfold INT_MIN, INT_MAX in *. lia. }
    assert (Hfresh : statsCalculators w !! (k + 1) = None).
    { unfold w. simpl. apply lookup_singleton_ne. lia. }
    apply (reachable_eq _ _ _ _
             (reachable_call _ _ (Destroy k) (reachable_call _ _ Create IH))).
    + simpl. lia.
    + rewrite perform_Destroy_state, perform_Create.
      change (Returned (VInt (next_key (statsCalculators w))), (statsCalcCreate w).2).2
        with (statsCalcCreate w).2.
      rewrite statsCalcCreate_eq, Hnext, emplace_hint_fresh by done.
      rewrite statsCalcDestroy_live.
      * unfold w, world_of, set_statsCalculators. simpl. f_equal.
        rewrite delete_insert_ne by lia.
        rewrite delete_singleton_eq, insert_empty. by rewrite Z.add_1_r.
      * unfold live, w. simpl. rewrite lookup_insert_ne by lia.
        rewrite lookup_singleton_eq. by eexists.
Qed.

(** C9 fails after 2^31 creations: the state whose only live handle is
    INT_MAX is reachable, the next create returns INT_MIN, and INT_MIN
    is live afterwards. *)
Lemma reachable_negative_handle_counterexample :
  reachable 2147483648 world_INT_MAX
  ∧ (statsCalcCreate world_INT_MAX).1 = Returned (-2147483648)
  ∧ reachable 2147483649 (statsCalcCreate world_INT_MAX).2
  ∧ live (statsCalcCreate world_INT_MAX).2 (-2147483648)
  ∧ -2147483648 < 0.
Proof.
  assert (Hr : reachable 2147483648 world_INT_MAX).
  { apply (reachable_single INT_MAX); unfold INT_MAX; lia. }
  split; [exact Hr|]. split; [by vm_compute|]. split.
  - exact (reachable_call _ _ Create Hr).
  - split; [|lia]. exists StatsCalculator_new. by vm_compute.
Qed.

(** ** Successive handles *)

Lemma handles_created_Create (cs : list call) (w : World) :
  handles_created (Create :: cs) w =
  next_key (statsCalculators w) :: handles_created cs (statsCalcCreate w).2.
Proof. reflexivity. Qed.

Lemma handles_created_not_Create (c : call) (cs : list call) (w : World) :
  c ≠ Create ->
  handles_created (c :: cs) w = handles_created cs (perform c w).2.
Proof.
  intros Hc. destruct c; try done; cbn [handles_created];
    match goal with |- context [perform ?c w] => by destruct (perform c w) end.
Qed.

Lemma StronglySorted_lt_NoDup (l : list Z) : StronglySorted Z.lt l -> NoDup l.
Proof.
  induction 1 as [|x l _ IH Hx]; constructor; [|done].
  intros Hin. rewrite Forall_forall in Hx. specialize (Hx x Hin). lia.
Qed.

(** While no destroy removes the largest live handle, every handle a
    sequence creates is above all handles live at its start, and the
    handles come out in strictly increasing order. *)
Lemma handles_created_increasing (cs : list call) :
  forall (w : World) (n : Z),
    (forall k, live w k -> 0 <= k < n) -> 0 <= n ->
    n + total_creations cs <= 2147483648 ->
    spares_largest cs w ->
    StronglySorted Z.lt (handles_created cs w)
    ∧ Forall (fun h => forall k, live w k -> k < h) (handles_created cs w).
Proof.
  induction cs as [|c cs IH]; intros w n Hb Hn Hle Hspare.
  - split; constructor.
  - destruct Hspare as [Hc Hspare]. simpl in Hle.
    pose proof (total_creations_nonneg cs) as Hcs.
    destruct (Create_or_not c) as [->|Hne].
    + change (creations Create) with 1 in Hle.
      change (perform Create w).2 with (statsCalcCreate w).2 in Hspare.
      rewrite handles_created_Create.
      assert (Hlt : below_INT_MAX w).
      { apply (below_INT_MAX_of_bounds w n); [done|]. unfold INT_MAX. lia. }
      pose proof (next_key_bounds w n Hb ltac:(unfold INT_MAX; lia)) as Hkey.
      destruct (IH (statsCalcCreate w).2 (n + 1)) as [Hsorted Habove];
        [|lia|lia|done|].
      { intros k [->|Hk]%live_after_Create; [lia|].
        specialize (Hb k Hk). lia. }
      split.
      * constructor; [done|].
        eapply Forall_impl; [exact Habove|]. intros h Hh. apply Hh.
        apply live_after_Create. by left.
      * constructor.
        -- by apply next_key_above.
        -- eapply Forall_impl; [exact Habove|]. intros h Hh k Hk. apply Hh.
           apply live_after_Create. by right.
    + rewrite handles_created_not_Create by done.
      rewrite (creations_not_Create c Hne) in Hle.
      destruct (IH (perform c w).2 n) as [Hsorted Habove]; [|done|lia|done|].
      { intros k Hk. apply Hb. by apply (live_after_not_Create c). }
      split; [done|].
      eapply Forall_impl; [exact Habove|]. intros h Hh k Hk.
      pose proof (rbegin_first_after_not_Create c w Hne) as Hlast.
      destruct (rbegin_first (statsCalculators w)) as [m|] eqn:Hr.
      * assert (Hm : rbegin_first (statsCalculators (perform c w).2) = Some m).
        { apply Hlast. by destruct c. }
        apply rbegin_first_Some_1 in Hr as [_ Hub].
        apply rbegin_first_Some_1 in Hm as [Hm _].
        specialize (Hub k Hk). specialize (Hh m Hm). lia.
      * apply rbegin_first_None in Hr. unfold live in Hk.
        rewrite Hr, lookup_empty in Hk. by destruct Hk.
Qed.

(** C3 (as amended): starting from the empty map, across every sequence
    of calls with at most 2^31 creations in which no statsCalcDestroy
    removes the handle that is the largest live one at that moment, the
    handles returned by successive statsCalcCreate() calls are strictly
    increasing, so none is returned twice. *)
Theorem handles_increase_while_largest_spared (cs : list call) (w : World) :
  statsCalculators w = ∅ ->
  total_creations cs <= 2147483648 ->
  spares_largest cs w ->
  StronglySorted Z.lt (handles_created cs w) ∧ NoDup (handles_created cs w).
Proof.
  intros Hw Hle Hspare.
  destruct (handles_created_increasing cs w 0) as [Hsorted _]; [|lia|lia|done|].
  { intros k Hk. unfold live in Hk. rewrite Hw, lookup_empty in Hk. by destruct Hk. }
  split; [done|]. by apply StronglySorted_lt_NoDup.
Qed.

Lemma spares_largest_calls_keeping_largest :
  spares_largest calls_keeping_largest empty_world.
Proof. repeat split. by vm_compute. Qed.

Lemma handles_increase_while_largest_spared_witness :
  statsCalculators empty_world = ∅
  ∧ total_creations calls_keeping_largest <= 2147483648
  ∧ spares_largest calls_keeping_largest empty_world
  ∧ handles_created calls_keeping_largest empty_world = [0; 1; 2]
  ∧ StronglySorted Z.lt (handles_created calls_keeping_largest empty_world)
  ∧ NoDup (handles_created calls_keeping_largest empty_world).
Proof.
  assert (Hle : total_creations calls_keeping_largest <= 2147483648)
    by (vm_compute; discriminate).
  split; [reflexivity|]. split; [exact Hle|].
  split; [exact spares_largest_calls_keeping_largest|].
  split; [by vm_compute|].
  exact (handles_increase_while_largest_spared calls_keeping_largest empty_world
           eq_refl Hle spares_largest_calls_keeping_largest).
Defined.

(** C3 fails once the largest live handle is destroyed: creating twice,
    destroying 1 then 0 and creating again returns 0, 1, 0, which is
    neither increasing nor free of repetition. *)
Lemma handles_reused_counterexample :
  handles_created calls_destroying_largest empty_world = [0; 1; 0]
  ∧ ¬ StronglySorted Z.le (handles_created calls_destroying_largest empty_world)
  ∧ ¬ NoDup (handles_created calls_destroying_largest empty_world).
Proof.
  assert (He : handles_created calls_destroying_largest empty_world = [0; 1; 0])
    by (by vm_compute).
  rewrite He. split; [done|]. split.
  - intros Hs. apply StronglySorted_inv in Hs as [Hs _].
    apply StronglySorted_inv in Hs as [_ Hs].
    apply Forall_inv in Hs. lia.
  - intros Hn. apply NoDup_cons_1_1 in Hn. apply Hn.
    apply elem_of_cons. right. apply elem_of_cons. by left.
Qed.

(** ** The accumulator *)

Lemma numericValues_readFile (tokens : list float) (self : StatsCalculator) :
  numericValues (readFile tokens self) = numericValues self ++ tokens.
Proof.
  unfold readFile. revert self.
  induction tokens as [|t tokens IH]; intros self; simpl.
  - by rewrite app_nil_r.
  - rewrite IH. simpl. by rewrite <- app_assoc.
Qed.

Lemma numericValues_apply_appending (self : StatsCalculator) (a : appending) :
  numericValues (apply_appending self a) = numericValues self ++ appended_values a.
Proof. destruct a; [done|]. apply numericValues_readFile. Qed.

(** Samples are kept in the order they were appended, nothing dropped
    and nothing added. *)
Lemma numericValues_appendings (appendings : list appending) (self : StatsCalculator) :
  numericValues (fold_left apply_appending appendings self) =
  numericValues self ++ concat (map appended_values appendings).
Proof.
  revert self. induction appendings as [|a appendings IH]; intros self; simpl.
  - by rewrite app_nil_r.
  - by rewrite IH, numericValues_apply_appending, <- app_assoc.
Qed.

(** C6: whatever sequence of values is appended to a new accumulator,
    through appendValue or readFile, getSum() is the left-to-right
    floating-point sum of exactly those values in append order; it is
    0.0 for an accumulator without samples. *)
Theorem getSum_left_to_right (appendings : list appending) :
  getSum (fold_left apply_appending appendings StatsCalculator_new) =
    fold_left PrimFloat.add (concat (map appended_values appendings)) 0%float
  ∧ getSum StatsCalculator_new = 0%float.
Proof.
  split; [|reflexivity].
  unfold getSum, computeSum. by rewrite numericValues_appendings.
Qed.

Lemma sumSquaredDeviations_map (mean : float) (values : list float) :
  sumSquaredDeviations mean values =
  float_sum (map (fun x => PrimFloat.mul (PrimFloat.sub x mean) (PrimFloat.sub x mean)) values).
Proof.
  unfold sumSquaredDeviations, float_sum. generalize 0%float.
  induction values as [|x values IH]; intros acc; simpl; [done|]. apply IH.
Qed.

(** C7: for an accumulator with at least one sample, getMean() is
    getSum() divided by the sample count, and getStandardDeviation() is
    the population standard deviation, the square root of the summed
    squared deviations from the mean divided by the count. *)
Theorem getMean_getStandardDeviation_formulas (self : StatsCalculator) :
  numericValues self ≠ [] ->
  getMean self =
    PrimFloat.div (getSum self) (count_as_double (length (numericValues self)))
  ∧ getStandardDeviation self =
    population_standard_deviation (getMean self) (numericValues self).
Proof.
  intros _. split; [reflexivity|].
  unfold getStandardDeviation, computeStandardDeviation, population_standard_deviation.
  by rewrite sumSquaredDeviations_map.
Qed.

Lemma getMean_getStandardDeviation_formulas_witness :
  numericValues samples_2_4_6 ≠ []
  ∧ getMean samples_2_4_6 =
      PrimFloat.div (getSum samples_2_4_6)
        (count_as_double (length (numericValues samples_2_4_6)))
  ∧ getStandardDeviation samples_2_4_6 =
      population_standard_deviation (getMean samples_2_4_6) (numericValues samples_2_4_6).
Proof.
  assert (Hne : numericValues samples_2_4_6 ≠ []) by discriminate.
  split; [exact Hne|].
  exact (getMean_getStandardDeviation_formulas samples_2_4_6 Hne).
Defined.

(** On the samples 2, 4, 6 the sum is 12, the mean 4 and the standard
    deviation sqrt(8/3); the sample (N - 1) formula would give 2. *)
Lemma samples_2_4_6_statistics :
  getSum samples_2_4_6 = 12%float
  ∧ getMean samples_2_4_6 = 4%float
  ∧ getStandardDeviation samples_2_4_6 = PrimFloat.sqrt (PrimFloat.div 8 3)
  ∧ sample_standard_deviation 4 (numericValues samples_2_4_6) = 2%float
  ∧ getStandardDeviation samples_2_4_6
    ≠ sample_standard_deviation 4 (numericValues samples_2_4_6).
Proof.
  split; [by vm_compute|]. split; [by vm_compute|].
  split; [by vm_compute|]. split; [by vm_compute|].
  intros H. apply (f_equal (fun x => PrimFloat.eqb x 2)) in H.
  vm_compute in H. discriminate.
Qed.

(** C8: getMean() and getStandardDeviation() on an accumulator without
    samples evaluate to NaN, and the wrappers hand that NaN back to the
    caller as an ordinary return value, nothing being thrown. *)
Theorem empty_accumulator_yields_nan (w : World) (h : Z) (self : StatsCalculator) :
  statsCalculators w !! h = Some self ->
  numericValues self = [] ->
  getMean self = nan
  ∧ getStandardDeviation self = nan
  ∧ statsCalcGetMean h w = (Returned nan, w)
  ∧ statsCalcGetStdDev h w = (Returned nan, w).
Proof.
  intros Hh Hempty.
  assert (Hmean : getMean self = nan).
  { unfold getMean, computeMean, computeSum, size_as_double. by rewrite Hempty. }
  assert (Hsd : getStandardDeviation self = nan).
  { unfold getStandardDeviation, computeStandardDeviation, computeMean,
      computeSum, size_as_double. by rewrite Hempty. }
  rewrite (statsCalcGetMean_live h w self Hh), (statsCalcGetStdDev_live h w self Hh).
  by rewrite Hmean, Hsd.
Qed.

Lemma empty_accumulator_yields_nan_witness :
  statsCalculators world_fresh_and_2_4_6 !! 0 = Some StatsCalculator_new
  ∧ numericValues StatsCalculator_new = []
  ∧ getMean StatsCalculator_new = nan
  ∧ getStandardDeviation StatsCalculator_new = nan
  ∧ statsCalcGetMean 0 world_fresh_and_2_4_6 = (Returned nan, world_fresh_and_2_4_6)
  ∧ statsCalcGetStdDev 0 world_fresh_and_2_4_6 = (Returned nan, world_fresh_and_2_4_6).
Proof.
  assert (Hh : statsCalculators world_fresh_and_2_4_6 !! 0 = Some StatsCalculator_new)
    by (by vm_compute).
  split; [exact Hh|]. split; [reflexivity|].
  exact (empty_accumulator_yields_nan world_fresh_and_2_4_6 0 StatsCalculator_new Hh eq_refl).
Defined.

(** The scenario of the interface: create, append 2, 4 and 6, query. *)
Lemma scenario_create_append_query :
  (statsCalcCreate empty_world).1 = Returned 0
  ∧ (statsCalcGetSum 0
       (run [Create; AppendValue 0 2%float; AppendValue 0 4%float; AppendValue 0 6%float]
          empty_world)).1 = Returned 12%float
  ∧ (statsCalcGetMean 0
       (run [Create; AppendValue 0 2%float; AppendValue 0 4%float; AppendValue 0 6%float]
          empty_world)).1 = Returned 4%float
  ∧ (statsCalcGetStdDev 0
       (run [Create; AppendValue 0 2%float; AppendValue 0 4%float; AppendValue 0 6%float]
          empty_world)).1 = Returned (PrimFloat.sqrt (PrimFloat.div 8 3)).
Proof. repeat split; by vm_compute. Qed.

(** ** Destruction *)

Lemma statsCalcDestroy_lookup (handle : Z) (w : World) (k : Z) :
  statsCalculators (statsCalcDestroy handle w).2 !! k =
  if decide (handle = k) then None else statsCalculators w !! k.
Proof.
  unfold statsCalcDestroy.
  destruct (statsCalculators w !! handle) eqn:Hh; simpl.
  - apply lookup_delete.
  - case_decide; [by subst|done].
Qed.

(** X1: whatever the handle, statsCalcDestroy returns normally, the
    handle is not in the map afterwards, every other element is as it
    was, and the files are untouched. *)
Theorem statsCalcDestroy_removes_only_handle (handle : Z) (w : World) :
  (statsCalcDestroy handle w).1 = Returned tt
  ∧ statsCalculators (statsCalcDestroy handle w).2 !! handle = None
  ∧ (forall k, k ≠ handle ->
       statsCalculators (statsCalcDestroy handle w).2 !! k = statsCalculators w !! k)
  ∧ inputFiles (statsCalcDestroy handle w).2 = inputFiles w
  ∧ outputFiles (statsCalcDestroy handle w).2 = outputFiles w.
Proof.
  split; [|split; [|split]].
  - unfold statsCalcDestroy. by destruct (statsCalculators w !! handle).
  - rewrite statsCalcDestroy_lookup. by case_decide.
  - intros k Hk. rewrite statsCalcDestroy_lookup. case_decide; [by subst|done].
  - unfold statsCalcDestroy. by destruct (statsCalculators w !! handle).
Qed.

(** X2: once a handle has been passed to statsCalcDestroy, every wrapper
    called with it is swallowed: the mutating ones and a second
    statsCalcDestroy change nothing, the queries return 0.0. *)
Theorem handle_swallowed_after_statsCalcDestroy
    (handle : Z) (v : float) (f : string) (w : World) :
  let w' := (statsCalcDestroy handle w).2 in
  statsCalcDestroy handle w' = (Returned tt, w')
  ∧ statsCalcAppendValue handle v w' = (Returned tt, w')
  ∧ statsCalcReadFile handle f w' = (Returned tt, w')
  ∧ statsCalcWriteStats handle f w' = (Returned tt, w')
  ∧ statsCalcGetSum handle w' = (Returned 0%float, w')
  ∧ statsCalcGetMean handle w' = (Returned 0%float, w')
  ∧ statsCalcGetStdDev handle w' = (Returned 0%float, w').
Proof.
  intros w'.
  assert (Hgone : statsCalculators w' !! handle = None).
  { unfold w'. rewrite statsCalcDestroy_lookup. by case_decide. }
  api_unfold. rewrite Hgone. repeat split.
Qed.

(** ** What a call may touch *)


Lemma perform_lookup_other (c : call) (w : World) (handle k : Z) :
  target c = Some handle -> k ≠ handle ->
  statsCalculators (perform c w).2 !! k = statsCalculators w !! k.
Proof.
  intros Ht Hk.
  destruct c as [|h|h v|h f|h f|h|h|h]; simpl in Ht; try discriminate;
    injection Ht as ->.
  - rewrite perform_Destroy_state, statsCalcDestroy_lookup.
    case_decide; [by subst|done].
  - unfold perform; api_unfold.
    destruct (statsCalculators w !! handle); simpl; [|done].
    by apply lookup_insert_ne.
  - unfold perform; api_unfold.
    destruct (statsCalculators w !! handle); simpl; [|done].
    by apply lookup_insert_ne.
  - unfold perform; api_unfold. by destruct (statsCalculators w !! handle).
  - unfold perform; api_unfold. by destruct (statsCalculators w !! handle).
  - unfold perform; api_unfold. by destruct (statsCalculators w !! handle).
  - unfold perform; api_unfold. by destruct (statsCalculators w !! handle).
Qed.

Lemma keeps_instances_creations (c : call) :
  keeps_instances c = true ->
  creations c = 0 ∧ forall handle, c ≠ Destroy handle.
Proof. by destruct c. Qed.

(** X4: appending, reading, writing and querying never change which
    handles are live, nor the handle the next statsCalcCreate returns. *)
Theorem perform_keeps_instances (c : call) (w : World) :
  keeps_instances c = true ->
  (forall k, live (perform c w).2 k <-> live w k)
  ∧ (statsCalcCreate (perform c w).2).1 = (statsCalcCreate w).1.
Proof.
  intros [Hc Hd]%keeps_instances_creations.
  assert (Hlive : forall k, live (perform c w).2 k <-> live w k).
  { intros k. by apply live_after_other. }
  split; [done|].
  rewrite !statsCalcCreate_eq. simpl. unfold next_key.
  by rewrite (rbegin_first_ext _ _ Hlive).
Qed.

Lemma perform_keeps_instances_witness :
  keeps_instances (ReadFile 1 "data.txt") = true
  ∧ (forall k, live (perform (ReadFile 1 "data.txt") world_fresh_and_2_4_6).2 k
               <-> live world_fresh_and_2_4_6 k)
  ∧ (statsCalcCreate (perform (ReadFile 1 "data.txt") world_fresh_and_2_4_6).2).1
    = (statsCalcCreate world_fresh_and_2_4_6).1.
Proof.
  split; [reflexivity|].
  exact (perform_keeps_instances (ReadFile 1 "data.txt") world_fresh_and_2_4_6 eq_refl).
Defined.

Lemma perform_lookup_kept (c : call) (w : World) (handle : Z) (self : StatsCalculator) :
  target c ≠ Some handle ->
  statsCalculators w !! handle = Some self ->
  statsCalculators (perform c w).2 !! handle = Some self.
Proof.
  intros Ht Hh. destruct (target c) as [h|] eqn:Hc.
  - rewrite (perform_lookup_other c w h handle Hc); [done|]. congruence.
  - destruct c; try discriminate.
    rewrite perform_Create, statsCalcCreate_eq. simpl.
    by apply emplace_hint_frame.
Qed.

(** X5: an instance that no call of a sequence is addressed to, and in
    particular that none destroys, is still in the map with the same
    samples after the sequence, whatever else is created, destroyed,
    filled or queried meanwhile. *)
Theorem run_keeps_untargeted_instance
    (cs : list call) (w : World) (handle : Z) (self : StatsCalculator) :
  Forall (fun c => target c ≠ Some handle) cs ->
  statsCalculators w !! handle = Some self ->
  statsCalculators (run cs w) !! handle = Some self.
Proof.
  intros Hcs. revert w.
  induction Hcs as [|c cs Hc _ IH]; intros w Hh; simpl; [done|].
  apply IH. by apply perform_lookup_kept.
Qed.

Lemma run_keeps_untargeted_instance_witness :
  Forall (fun c => target c ≠ Some 1) calls_keeping_largest
  ∧ statsCalculators world_2_4_6_and_fresh !! 1 = Some StatsCalculator_new
  ∧ statsCalculators (run calls_keeping_largest world_2_4_6_and_fresh) !! 1
    = Some StatsCalculator_new.
Proof.
  assert (Hcs : Forall (fun c => target c ≠ Some 1) calls_keeping_largest).
  { repeat constructor; discriminate. }
  split; [exact Hcs|]. split; [reflexivity|].
  exact (run_keeps_untargeted_instance calls_keeping_largest world_2_4_6_and_fresh
           1 StatsCalculator_new Hcs eq_refl).
Defined.

(** X6: appends addressed to two different handles commute: either
    order leaves the same state, whether the handles are live or not. *)
Theorem statsCalcAppendValue_commute (h1 h2 : Z) (v1 v2 : float) (w : World) :
  h1 ≠ h2 ->
  (statsCalcAppendValue h2 v2 (statsCalcAppendValue h1 v1 w).2).2 =
  (statsCalcAppendValue h1 v1 (statsCalcAppendValue h2 v2 w).2).2.
Proof.
  intros Hne. api_unfold.
  destruct (statsCalculators w !! h1) as [c1|] eqn:H1;
    destruct (statsCalculators w !! h2) as [c2|] eqn:H2; simpl;
    rewrite ?lookup_insert_ne by done; rewrite ?H1, ?H2; simpl; try done.
  unfold set_statsCalculators; simpl. f_equal.
  by apply insert_insert_ne.
Qed.

Lemma statsCalcAppendValue_commute_witness :
  0 ≠ 1
  ∧ (statsCalcAppendValue 1 8%float
       (statsCalcAppendValue 0 3%float world_fresh_and_2_4_6).2).2 =
    (statsCalcAppendValue 0 3%float
       (statsCalcAppendValue 1 8%float world_fresh_and_2_4_6).2).2.
Proof.
  assert (Hne : 0 ≠ 1) by lia.
  split; [exact Hne|].
  exact (statsCalcAppendValue_commute 0 1 3%float 8%float world_fresh_and_2_4_6 Hne).
Defined.

(** ** Which handle comes next *)

(** X7: the handle statsCalcCreate returns depends on the set of live
    handles only, not on the samples stored nor on the files. *)
Theorem statsCalcCreate_handle_from_live_set (w1 w2 : World) :
  (forall k, live w1 k <-> live w2 k) ->
  (statsCalcCreate w1).1 = (statsCalcCreate w2).1.
Proof.
  intros Hlive. rewrite !statsCalcCreate_eq. simpl. unfold next_key.
  by rewrite (rbegin_first_ext _ _ Hlive).
Qed.

Lemma live_fresh_and_2_4_6_exchanged (k : Z) :
  live world_fresh_and_2_4_6 k <-> live world_2_4_6_and_fresh k.
Proof.
  unfold live, world_fresh_and_2_4_6, world_2_4_6_and_fresh, world_of; simpl.
  rewrite !lookup_insert_is_Some, !lookup_singleton_is_Some. tauto.
Qed.

Lemma statsCalcCreate_handle_from_live_set_witness :
  (forall k, live world_fresh_and_2_4_6 k <-> live world_2_4_6_and_fresh k)
  ∧ (statsCalcCreate world_fresh_and_2_4_6).1 = (statsCalcCreate world_2_4_6_and_fresh).1.
Proof.
  split; [exact live_fresh_and_2_4_6_exchanged|].
  exact (statsCalcCreate_handle_from_live_set world_fresh_and_2_4_6 world_2_4_6_and_fresh
           live_fresh_and_2_4_6_exchanged).
Defined.

(** X8: destroying a handle that is not the largest live one, live or
    not, does not change the handle the next statsCalcCreate returns. *)
Theorem statsCalcDestroy_not_largest_keeps_next (handle : Z) (w : World) :
  ¬ largest_live w handle ->
  (statsCalcCreate (statsCalcDestroy handle w).2).1 = (statsCalcCreate w).1.
Proof.
  intros Hnot. rewrite !statsCalcCreate_eq. simpl. unfold next_key.
  assert (Hne : rbegin_first (statsCalculators w) ≠ Some handle).
  { intros Hr. apply Hnot. by apply rbegin_first_Some. }
  unfold statsCalcDestroy.
  destruct (statsCalculators w !! handle); simpl; [|done].
  by rewrite rbegin_first_delete_other.
Qed.

Lemma not_largest_live_0_fresh_and_2_4_6 : ¬ largest_live world_fresh_and_2_4_6 0.
Proof.
  intros [_ Hub]. specialize (Hub 1).
  assert (Hlive : live world_fresh_and_2_4_6 1) by (exists samples_2_4_6; by vm_compute).
  specialize (Hub Hlive). lia.
Qed.

Lemma statsCalcDestroy_not_largest_keeps_next_witness :
  ¬ largest_live world_fresh_and_2_4_6 0
  ∧ (statsCalcCreate world_fresh_and_2_4_6).1 = Returned 2
  ∧ (statsCalcCreate (statsCalcDestroy 0 world_fresh_and_2_4_6).2).1
    = (statsCalcCreate world_fresh_and_2_4_6).1.
Proof.
  split; [exact not_largest_live_0_fresh_and_2_4_6|]. split; [by vm_compute|].
  exact (statsCalcDestroy_not_largest_keeps_next 0 world_fresh_and_2_4_6
           not_largest_live_0_fresh_and_2_4_6).
Defined.

(** X9: when the live handles are non-negative ints and the largest one
    is destroyed, the next statsCalcCreate returns a handle that is not
    above the destroyed one, naming a new accumulator without samples:
    a handle value comes back as soon as nothing at or above it is
    live. *)
Theorem statsCalcDestroy_largest_then_create (m : Z) (w : World) :
  largest_live w m ->
  (forall k, live w k -> 0 <= k <= INT_MAX) ->
  exists h,
    (statsCalcCreate (statsCalcDestroy m w).2).1 = Returned h
    ∧ 0 <= h <= m
    ∧ ¬ live (statsCalcDestroy m w).2 h
    ∧ statsCalculators (statsCalcCreate (statsCalcDestroy m w).2).2 !! h
      = Some StatsCalculator_new.
Proof.
  intros [Hm Hub] Hrange.
  set (w1 := (statsCalcDestroy m w).2).
  assert (Hb : forall k, live w1 k -> 0 <= k < m).
  { intros k [Hk Hlive]%live_after_Destroy.
    specialize (Hub k Hlive). specialize (Hrange k Hlive). lia. }
  pose proof (Hrange m Hm) as Hm_range.
  assert (Hlt : below_INT_MAX w1).
  { apply (below_INT_MAX_of_bounds w1 m); [done|lia]. }
  exists (next_key (statsCalculators w1)).
  pose proof (next_key_bounds w1 m Hb ltac:(lia)) as Hkey.
  pose proof (next_key_fresh w1 Hlt) as Hfresh.
  split; [done|]. split; [done|]. split.
  - unfold live. rewrite Hfresh. by intros [? ?].
  - rewrite statsCalcCreate_eq. simpl.
    rewrite emplace_hint_fresh by done. apply lookup_insert_eq.
Qed.

Lemma largest_live_1_fresh_and_2_4_6 : largest_live world_fresh_and_2_4_6 1.
Proof. apply rbegin_first_Some. by vm_compute. Qed.

Lemma range_fresh_and_2_4_6 (k : Z) :
  live world_fresh_and_2_4_6 k -> 0 <= k <= INT_MAX.
Proof.
  unfold live, world_fresh_and_2_4_6, world_of; simpl.
  rewrite lookup_insert_is_Some, lookup_singleton_is_Some.
  unfold INT_MAX. intros [<-|[_ <-]]; lia.
Qed.

Lemma statsCalcDestroy_largest_then_create_witness :
  largest_live world_fresh_and_2_4_6 1
  ∧ (forall k, live world_fresh_and_2_4_6 k -> 0 <= k <= INT_MAX)
  ∧ exists h,
      (statsCalcCreate (statsCalcDestroy 1 world_fresh_and_2_4_6).2).1 = Returned h
      ∧ 0 <= h <= 1
      ∧ ¬ live (statsCalcDestroy 1 world_fresh_and_2_4_6).2 h
      ∧ statsCalculators
          (statsCalcCreate (statsCalcDestroy 1 world_fresh_and_2_4_6).2).2 !! h
        = Some StatsCalculator_new.
Proof.
  split; [exact largest_live_1_fresh_and_2_4_6|].
  split; [exact range_fresh_and_2_4_6|].
  exact (statsCalcDestroy_largest_then_create 1 world_fresh_and_2_4_6
           largest_live_1_fresh_and_2_4_6 range_fresh_and_2_4_6).
Defined.

Lemma next_key_lower_bound (w : World) :
  below_INT_MAX w -> INT_MIN <= next_key (statsCalculators w).
Proof.
  intros Hlt. unfold next_key.
  destruct (rbegin_first (statsCalculators w)) as [m|] eqn:Hr.
  - apply rbegin_first_Some_1 in Hr as [Hm _]. specialize (Hlt m Hm).
    rewrite int_add_1_below_INT_MAX by done. lia.
  - unfold INT_MIN. lia.
Qed.

(** After a creation that did not reach INT_MAX, the next key is one
    more and still no live handle is at INT_MAX. *)
Lemma next_key_after_Create (w : World) :
  below_INT_MAX w -> next_key (statsCalculators w) < INT_MAX ->
  below_INT_MAX (statsCalcCreate w).2
  ∧ next_key (statsCalculators (statsCalcCreate w).2) = next_key (statsCalculators w) + 1.
Proof.
  intros Hlt Hkey. pose proof (next_key_lower_bound w Hlt) as Hlow. split.
  - intros k [->|Hk]%live_after_Create; [lia|]. by apply Hlt.
  - rewrite statsCalcCreate_eq. simpl.
    rewrite emplace_hint_fresh by (by apply next_key_fresh).
    unfold next_key at 1.
    rewrite rbegin_first_insert_above by (by apply next_key_above).
    apply int_add_1_below_INT_MAX. lia.
Qed.

(** X10: in a state whose live handles are all below INT_MAX, [n]
    statsCalcCreate calls in a row return [n] consecutive handles,
    starting one above the largest live handle (or at 0), as long as
    the last of them does not exceed INT_MAX. *)
Theorem consecutive_creations_consecutive_handles (n : nat) (w : World) :
  below_INT_MAX w ->
  next_key (statsCalculators w) + Z.of_nat n <= INT_MAX + 1 ->
  handles_created (replicate n Create) w =
  seqZ (next_key (statsCalculators w)) (Z.of_nat n).
Proof.
  revert w. induction n as [|n IH]; intros w Hlt Hle.
  - by rewrite seqZ_nil.
  - change (replicate (S n) Create) with (Create :: replicate n Create).
    rewrite handles_created_Create, seqZ_cons by lia. f_equal.
    replace (Z.pred (Z.of_nat (S n))) with (Z.of_nat n) by lia.
    destruct n as [|n].
    + by rewrite seqZ_nil.
    + destruct (next_key_after_Create w Hlt ltac:(lia)) as [Hlt' Hnext].
      rewrite IH by (try done; lia). by rewrite Hnext, Z.add_1_r.
Qed.

Lemma consecutive_creations_consecutive_handles_witness :
  below_INT_MAX world_0
  ∧ next_key (statsCalculators world_0) + Z.of_nat 3 <= INT_MAX + 1
  ∧ handles_created (replicate 3 Create) world_0 = [1; 2; 3]
  ∧ handles_created (replicate 3 Create) world_0 =
    seqZ (next_key (statsCalculators world_0)) (Z.of_nat 3).
Proof.
  assert (Hle : next_key (statsCalculators world_0) + Z.of_nat 3 <= INT_MAX + 1)
    by (vm_compute; discriminate).
  split; [exact below_INT_MAX_world_0|]. split; [exact Hle|].
  split; [by vm_compute|].
  exact (consecutive_creations_consecutive_handles 3 world_0 below_INT_MAX_world_0 Hle).
Defined.

(** X11: in every state, [int] overflow included, the handle
    statsCalcCreate returns is live in the state it leaves, so that the
    wrappers called with it next find an instance. *)
Theorem statsCalcCreate_handle_is_live (w : World) :
  exists h,
    (statsCalcCreate w).1 = Returned h
    ∧ live (statsCalcCreate w).2 h
    ∧ forall v, exists self,
        statsCalcAppendValue h v (statsCalcCreate w).2 =
        (Returned tt,
         set_statsCalculators
           (<[h := appendValue v self]> (statsCalculators (statsCalcCreate w).2))
           (statsCalcCreate w).2).
Proof.
  exists (next_key (statsCalculators w)).
  assert (Hlive : live (statsCalcCreate w).2 (next_key (statsCalculators w))).
  { apply live_after_Create. by left. }
  split; [done|]. split; [done|].
  intros v. destruct Hlive as [self Hself]. exists self.
  by apply statsCalcAppendValue_live.
Qed.
